(** * windowmanager: the native window-controller stub

  Embedding of [src/platform/native/window_controller_stub.h] and
  [window_controller_stub.cpp]: the [WindowRect] record and the
  [log_initialize] function, over a small model of the parts of the C++
  runtime the function touches (C strings in memory and the standard
  output stream). *)

From Stdlib Require Import Ascii String List ZArith Lia Bool.
Import ListNotations.

Set Implicit Arguments.

(** ** The C++ runtime pieces used by the stub *)

Module Cxx.

(** *** [int] *)

(** [int] is the 32-bit signed integer of the supported targets. *)
Definition INT_MIN : Z := (- 2 ^ 31)%Z.
Definition INT_MAX : Z := (2 ^ 31 - 1)%Z.

Definition is_int (z : Z) : Prop := (INT_MIN <= z <= INT_MAX)%Z.

Definition is_intb (z : Z) : bool := ((INT_MIN <=? z) && (z <=? INT_MAX))%Z.

(** *** [char], C strings and [const char*] *)

Definition char := ascii.

Definition NUL : char := "000"%char.
Definition LF : char := "010"%char.

(** Byte-addressed storage; address [a] is position [a] of the list. *)
Definition memory := list char.

(** A [const char*] is the null pointer or the address of a [char]. *)
Inductive pointer : Type :=
| nullptr
| ptr (a : nat).

(** The characters in front of the first terminating [NUL].  Running off
    the end of the storage before a terminator is met has no defined
    behaviour: [None]. *)
Fixpoint until_nul (l : list char) : option (list char) :=
  match l with
  | [] => None
  | c :: l' =>
      if Ascii.eqb c NUL then Some []
      else match until_nul l' with
           | Some s => Some (c :: s)
           | None => None
           end
  end.

(** The text a [const char*] designates; the null pointer designates
    none. *)
Definition c_str (m : memory) (p : pointer) : option (list char) :=
  match p with
  | nullptr => None
  | ptr a => until_nul (skipn a m)
  end.

(** *** [std::ostream] *)

(** An output stream in working order (no error flag set, no exception
    mask) with its formatting state at the defaults (field width 0): the
    characters inserted and still held by the stream, and the characters
    already handed to the device behind it.  The source neither sets nor
    tests any of the stream's flags. *)
Record ostream : Type := mk_ostream {
  buffer : list char;
  device : list char
}.

(** Every character inserted so far, in insertion order. *)
Definition chars (s : ostream) : list char := device s ++ buffer s.

Definition write (cs : list char) (s : ostream) : ostream :=
  {| buffer := buffer s ++ cs; device := device s |}.

Definition put (c : char) (s : ostream) : ostream := write [c] s.

Definition flush (s : ostream) : ostream :=
  {| buffer := []; device := device s ++ buffer s |}.

(** What was inserted into a stream between two of its states. *)
Definition written_by (before after : ostream) : list char :=
  skipn (length (chars before)) (chars after).

(** *** Program state and computations *)

Record world : Type := mk_world {
  mem : memory;
  cout : ostream;
  cerr : ostream
}.

(** A computation runs on the program state and either returns a value
    with the new state or has no defined behaviour. *)
Definition Comp (A : Type) : Type := world -> option (A * world).

Definition ret {A} (a : A) : Comp A := fun w => Some (a, w).

Definition bind {A B} (c : Comp A) (k : A -> Comp B) : Comp B :=
  fun w => match c w with
           | Some (a, w') => k a w'
           | None => None
           end.

Definition on_cout (f : ostream -> ostream) : Comp unit :=
  fun w => Some (tt, {| mem := mem w; cout := f (cout w); cerr := cerr w |}).

Definition load_c_str (p : pointer) : Comp (list char) :=
  fun w => match c_str (mem w) p with
           | Some s => Some (s, w)
           | None => None
           end.

(** [std::cout << "literal"] *)
Definition cout_literal (lit : string) : Comp unit :=
  on_cout (write (list_ascii_of_string lit)).

(** [std::cout << s] for [const char* s] *)
Definition cout_c_str (s : pointer) : Comp unit :=
  bind (load_c_str s) (fun cs => on_cout (write cs)).

(** [std::cout << std::endl]: a new-line character, then a flush. *)
Definition cout_endl : Comp unit :=
  on_cout (fun s => flush (put LF s)).

End Cxx.

Declare Scope comp_scope.
Delimit Scope comp_scope with comp.
Notation "c1 ;; c2" := (Cxx.bind c1 (fun _ => c2))
(at level 61, right associativity) : comp_scope.

(** ** namespace windowmanager *)

Module windowmanager.
Import Cxx.

(** [struct WindowRect { int x; int y; int width; int height; };] *)
Record WindowRect : Type := mk_WindowRect {
  x : Z;
  y : Z;
  width : Z;
  height : Z
}.

(** Member assignment, [r.x = v] and so on. *)
Definition set_x (v : Z) (r : WindowRect) : WindowRect :=
  {| x := v; y := y r; width := width r; height := height r |}.
Definition set_y (v : Z) (r : WindowRect) : WindowRect :=
  {| x := x r; y := v; width := width r; height := height r |}.
Definition set_width (v : Z) (r : WindowRect) : WindowRect :=
  {| x := x r; y := y r; width := v; height := height r |}.
Definition set_height (v : Z) (r : WindowRect) : WindowRect :=
  {| x := x r; y := y r; width := width r; height := v |}.

(** A [WindowRect] object is any four [int]s. *)
Definition valid_rect (r : WindowRect) : Prop :=
  is_int (x r) /\ is_int (y r) /\ is_int (width r) /\ is_int (height r).

Definition valid_rectb (r : WindowRect) : bool :=
  is_intb (x r) && is_intb (y r) && is_intb (width r) && is_intb (height r).

Definition log_prefix : string :=
  "Initializing window controller for platform: ".

(** [void log_initialize(const char* platform_name) {
       std::cout << "Initializing window controller for platform: "
                 << platform_name << std::endl;
     }] *)
Definition log_initialize (platform_name : pointer) : Comp unit :=
  (cout_literal log_prefix ;;
   cout_c_str platform_name ;;
   cout_endl)%comp.

End windowmanager.

(** ** Reading the output back *)

Module LogLine.
Import Cxx windowmanager.

(** The characters of a literal. *)
Definition text (s : string) : list char := list_ascii_of_string s.

(** The storage image of a literal used as a C string. *)
Definition c_string (s : string) : memory := text s ++ [NUL].






(** A state with nothing written yet and the given storage. *)
Definition fresh_stream : ostream := {| buffer := []; device := [] |}.

Definition boot (m : memory) : world :=
  {| mem := m; cout := fresh_stream; cerr := fresh_stream |}.

(** The state in which a call on the text [P], started in [w], returns. *)
Definition after_log (w : world) (P : list char) : world :=
  {| mem := mem w;
     cout := flush (put LF (write P (write (text log_prefix) (cout w))));
     cerr := cerr w |}.

End LogLine.

(** ** Several calls in a row *)

Module Session.
Import Cxx windowmanager LogLine.

(** One call of [log_initialize] per argument, in order. *)
Fixpoint log_each (names : list pointer) : Comp unit :=
  match names with
  | [] => ret tt
  | p :: ps => (log_initialize p ;; log_each ps)%comp
  end.

(** The characters one call writes for the text [P]. *)
Definition log_line (P : list char) : list char :=
  text log_prefix ++ P ++ [LF].



End Session.

(** ** The stub on a stream with its error and formatting state *)

Module Formatted.
Import Cxx.

(** [std::ios_base::iostate] *)
Record iostate : Type := mk_iostate {
  badbit : bool;
  failbit : bool;
  eofbit : bool
}.

Definition goodbit : iostate :=
  {| badbit := false; failbit := false; eofbit := false |}.

(** [good()]: no bit is set. *)
Definition is_good (st : iostate) : bool :=
  negb (badbit st || failbit st || eofbit st).

(** A [std::ostream] with the state its inserters consult: the error
    state, the field width, the fill character, whether [adjustfield] is
    [left], and [unitbuf]; [os_chars] holds the characters.  The exception
    mask is the default one, so [setstate] never throws, and the device
    takes every character handed to it. *)
Record ostream : Type := mk_ostream {
  os_state : iostate;
  os_width : nat;
  os_fill : char;
  os_left : bool;
  os_unitbuf : bool;
  os_chars : Cxx.ostream
}.

(** [setstate(failbit)] *)
Definition setstate_fail (s : ostream) : ostream :=
  {| os_state := {| badbit := badbit (os_state s);
                    failbit := true;
                    eofbit := eofbit (os_state s) |};
     os_width := os_width s; os_fill := os_fill s; os_left := os_left s;
     os_unitbuf := os_unitbuf s; os_chars := os_chars s |}.

(** What the sentry's destructor does to the characters: with [unitbuf]
    set, it flushes. *)
Definition sentry_exit (s : ostream) (c : Cxx.ostream) : Cxx.ostream :=
  if os_unitbuf s then Cxx.flush c else c.

(** An output step under a sentry: on a stream that is not good the
    sentry sets [failbit] and the step is skipped. *)
Definition guarded (f : Cxx.ostream -> Cxx.ostream) (s : ostream) : ostream :=
  if is_good (os_state s) then
    {| os_state := os_state s;
       os_width := os_width s; os_fill := os_fill s; os_left := os_left s;
       os_unitbuf := os_unitbuf s;
       os_chars := sentry_exit s (f (os_chars s)) |}
  else setstate_fail s.

(** Padding of a character sequence to the field width: fill characters
    go after the sequence when the adjustment is [left], in front of it
    otherwise. *)
Definition padded (s : ostream) (cs : list char) : list char :=
  if os_left s
  then cs ++ repeat (os_fill s) (os_width s - length cs)
  else repeat (os_fill s) (os_width s - length cs) ++ cs.

(** The formatted inserter of a character sequence: padded insertion,
    then [width(0)]. *)
Definition insert (cs : list char) (s : ostream) : ostream :=
  if is_good (os_state s) then
    {| os_state := os_state s;
       os_width := 0; os_fill := os_fill s; os_left := os_left s;
       os_unitbuf := os_unitbuf s;
       os_chars := sentry_exit s (Cxx.write (padded s cs) (os_chars s)) |}
  else setstate_fail s.

(** [put(c)]: unformatted, the field width plays no part. *)
Definition put (c : char) (s : ostream) : ostream :=
  guarded (Cxx.write [c]) s.

Definition flush (s : ostream) : ostream := guarded Cxx.flush s.

Record world : Type := mk_world {
  mem : memory;
  cout : ostream;
  cerr : ostream
}.

Definition Comp (A : Type) : Type := world -> option (A * world).

Definition bind {A B} (c : Comp A) (k : A -> Comp B) : Comp B :=
  fun w => match c w with
           | Some (a, w') => k a w'
           | None => None
           end.

Definition on_cout (f : ostream -> ostream) : Comp unit :=
  fun w => Some (tt, {| mem := mem w; cout := f (cout w); cerr := cerr w |}).

Definition load_c_str (p : pointer) : Comp (list char) :=
  fun w => match c_str (mem w) p with
           | Some s => Some (s, w)
           | None => None
           end.

(** [std::cout << "literal"] *)
Definition cout_literal (lit : string) : Comp unit :=
  on_cout (insert (list_ascii_of_string lit)).

(** [std::cout << s] for [const char* s]; the length of [s] is taken
    before the sentry is built. *)
Definition cout_c_str (s : pointer) : Comp unit :=
  bind (load_c_str s) (fun cs => on_cout (insert cs)).

(** [std::cout << std::endl] *)
Definition cout_endl : Comp unit :=
  on_cout (fun s => flush (put LF s)).

(** [void log_initialize(const char* platform_name) {
       std::cout << "Initializing window controller for platform: "
                 << platform_name << std::endl;
     }] *)
Definition log_initialize (platform_name : pointer) : Comp unit :=
  bind (cout_literal windowmanager.log_prefix) (fun _ =>
  bind (cout_c_str platform_name) (fun _ =>
  cout_endl)).

(** The part of the stream state the written characters depend on. *)
Definition output_state (s : ostream) : bool * nat * char * bool :=
  (is_good (os_state s), os_width s, os_fill s, os_left s).

(** What was inserted into a stream between two of its states. *)
Definition written_by (before after : ostream) : list char :=
  Cxx.written_by (os_chars before) (os_chars after).

(** The stream as a program finds it at start, with a given field
    width. *)
Definition fresh_stream (width : nat) : ostream :=
  {| os_state := goodbit; os_width := width; os_fill := " "%char;
     os_left := false; os_unitbuf := false;
     os_chars := {| buffer := []; device := [] |} |}.

Definition boot (m : memory) (width : nat) : world :=
  {| mem := m; cout := fresh_stream width; cerr := fresh_stream 0 |}.

(** A stream on which an earlier operation has failed. *)
Definition failed_stream : ostream :=
  {| os_state := {| badbit := false; failbit := true; eofbit := false |};
     os_width := 0; os_fill := " "%char;
     os_left := false; os_unitbuf := false;
     os_chars := {| buffer := []; device := [] |} |}.

(** Forgetting the error and formatting state. *)
Definition erase (w : world) : Cxx.world :=
  {| Cxx.mem := mem w;
     Cxx.cout := os_chars (cout w);
     Cxx.cerr := os_chars (cerr w) |}.

End Formatted.

(** ** Facts about the runtime model *)

Import Cxx windowmanager LogLine.

Lemma is_intb_spec (z : Z) : is_intb z = true <-> is_int z.
Proof.
  unfold is_intb, is_int.
  rewrite andb_true_iff, !Z.leb_le. tauto.
Qed.

Lemma valid_rectb_spec (r : WindowRect) : valid_rectb r = true <-> valid_rect r.
Proof.
  unfold valid_rectb, valid_rect.
  rewrite !andb_true_iff, !is_intb_spec. tauto.
Qed.

Section CStrings.

Lemma until_nul_app (P rest : list char) :
  ~ In NUL P -> until_nul (P ++ NUL :: rest) = Some P.
Proof.
  induction P as [|c P IH]; intros Hnul.
  - reflexivity.
  - cbn [app until_nul].
    destruct (Ascii.eqb_spec c NUL) as [->|_].
    + exfalso. apply Hnul. now left.
    + rewrite IH; [reflexivity|].
      intros Hin. apply Hnul. now right.
Qed.


(** A pointer to the first character of [P], stored with its terminator,
    designates [P]. *)
Lemma c_str_at (before P after : list char) :
  ~ In NUL P ->
  c_str (before ++ P ++ NUL :: after) (ptr (length before)) = Some P.
Proof.
  intros Hnul. unfold c_str.
  rewrite skipn_app, skipn_all, Nat.sub_diag. cbn [app skipn].
  now apply until_nul_app.
Qed.


End CStrings.

Section Streams.

Lemma chars_write (cs : list char) (s : ostream) :
  chars (write cs s) = chars s ++ cs.
Proof. unfold chars, write. cbn. now rewrite app_assoc. Qed.

Lemma chars_flush (s : ostream) : chars (flush s) = chars s.
Proof. unfold chars, flush. cbn. now rewrite app_nil_r. Qed.



Lemma written_by_app (s s' : ostream) (cs : list char) :
  chars s' = chars s ++ cs -> written_by s s' = cs.
Proof.
  intros H. unfold written_by. rewrite H.
  now rewrite skipn_app, skipn_all, Nat.sub_diag.
Qed.

End Streams.

(** ** What one call of [log_initialize] does *)

Section Run.

Variables (w : world) (platform_name : pointer).

Lemma log_initialize_text (P : list char) :
  c_str (mem w) platform_name = Some P ->
  log_initialize platform_name w = Some (tt, after_log w P).
Proof.
  intros HP.
  unfold log_initialize, cout_literal, cout_c_str, cout_endl, load_c_str,
    on_cout, bind.
  cbn [mem cout cerr]. now rewrite HP.
Qed.


Lemma after_log_chars (P : list char) :
  chars (cout (after_log w P)) = chars (cout w) ++ text log_prefix ++ P ++ [LF].
Proof.
  unfold after_log, put. cbn [cout].
  now rewrite chars_flush, !chars_write, <- !app_assoc.
Qed.

Lemma after_log_written (P : list char) :
  written_by (cout w) (cout (after_log w P)) = text log_prefix ++ P ++ [LF].
Proof. apply written_by_app, after_log_chars. Qed.

End Run.

(** ** The log line *)





(** ** Safety and frame *)



(** C5. The call returns the unit value and no error; it changes nothing
    but the standard output stream, to which it only appends: storage and
    the other stream are as before. *)
Theorem log_initialize_frame (w : world) (platform_name : pointer)
    (P : list char) :
  c_str (mem w) platform_name = Some P ->
  exists w',
    log_initialize platform_name w = Some (tt, w') /\
    mem w' = mem w /\
    cerr w' = cerr w /\
    exists added, chars (cout w') = chars (cout w) ++ added.
Proof.
  intros HP. exists (after_log w P).
  split; [now apply log_initialize_text|].
  split; [reflexivity|]. split; [reflexivity|].
  eexists. apply after_log_chars.
Qed.

Lemma log_initialize_frame_witness :
  c_str (mem (boot (c_string "macOS"))) (ptr 0) = Some (text "macOS") /\
  exists w',
    log_initialize (ptr 0) (boot (c_string "macOS")) = Some (tt, w') /\
    mem w' = mem (boot (c_string "macOS")) /\
    cerr w' = cerr (boot (c_string "macOS")) /\
    exists added,
      chars (cout w') = chars (cout (boot (c_string "macOS"))) ++ added.
Proof.
  split; [reflexivity|].
  apply (@log_initialize_frame (boot (c_string "macOS")) (ptr 0) (text "macOS")).
  reflexivity.
Defined.

(** ** Lines of output *)

Section Lines.




End Lines.




(** ** Reading the platform name back *)

Section Recover.




End Recover.



(** ** WindowRect *)

(** C3. A [WindowRect] built from four integers, by aggregate
    initialisation or by assigning the four members of any object, reads
    back the same four integers. *)
Theorem WindowRect_round_trip (a b c d : Z) (r0 : WindowRect) :
  let r := {| x := a; y := b; width := c; height := d |} in
  let r' := set_height d (set_width c (set_y b (set_x a r0))) in
  (x r, y r, width r, height r) = (a, b, c, d) /\
  (x r', y r', width r', height r') = (a, b, c, d) /\
  r' = r.
Proof. cbv zeta. repeat split. Qed.

(** C6. [WindowRect] keeps no invariant.  Any four [int]s, negative sizes
    included, are the members of a valid object; assigning any [int] to a
    member stores exactly that value, refuses nothing and leaves the other
    three members alone; every object is reached from any other by four
    assignments.  Hence a property of objects that every member assignment
    keeps, once it holds of one object, holds of all of them: the
    operations constrain no member value. *)
Theorem WindowRect_no_invariant (Inv : WindowRect -> Prop) (r0 : WindowRect)
    (a b c d v : Z) :
  is_int a -> is_int b -> is_int c -> is_int d -> is_int v ->
  valid_rect r0 ->
  (forall s u, valid_rect s -> is_int u -> Inv s ->
     Inv (set_x u s) /\ Inv (set_y u s) /\
     Inv (set_width u s) /\ Inv (set_height u s)) ->
  let r := {| x := a; y := b; width := c; height := d |} in
  valid_rect r /\
  (valid_rect (set_x v r) /\ valid_rect (set_y v r) /\
   valid_rect (set_width v r) /\ valid_rect (set_height v r)) /\
  set_x v r = {| x := v; y := b; width := c; height := d |} /\
  set_y v r = {| x := a; y := v; width := c; height := d |} /\
  set_width v r = {| x := a; y := b; width := v; height := d |} /\
  set_height v r = {| x := a; y := b; width := c; height := v |} /\
  set_height d (set_width c (set_y b (set_x a r0))) = r /\
  (Inv r0 -> Inv r).
Proof.
  intros Ha Hb Hc Hd Hv H0 Hkeep r. subst r.
  split; [unfold valid_rect; cbn [x y width height]; tauto|].
  split.
  { unfold valid_rect, set_x, set_y, set_width, set_height.
    cbn [x y width height]. tauto. }
  do 5 (split; [reflexivity|]).
  intros HI.
  assert (V1 : valid_rect (set_x a r0)).
  { destruct H0 as (H0x & H0y & H0w & H0h).
    unfold valid_rect, set_x; cbn [x y width height]; tauto. }
  assert (V2 : valid_rect (set_y b (set_x a r0))).
  { destruct V1 as (H1x & H1y & H1w & H1h).
    unfold valid_rect, set_y; cbn [x y width height]; tauto. }
  assert (V3 : valid_rect (set_width c (set_y b (set_x a r0)))).
  { destruct V2 as (H2x & H2y & H2w & H2h).
    unfold valid_rect, set_width; cbn [x y width height]; tauto. }
  assert (I1 : Inv (set_x a r0)) by apply (Hkeep r0 a H0 Ha HI).
  assert (I2 : Inv (set_y b (set_x a r0))) by apply (Hkeep _ b V1 Hb I1).
  assert (I3 : Inv (set_width c (set_y b (set_x a r0))))
    by apply (Hkeep _ c V2 Hc I2).
  apply (Hkeep _ d V3 Hd I3).
Qed.

Lemma WindowRect_no_invariant_witness :
  is_int 0 /\ is_int (-7) /\ is_int (-800) /\ is_int (-600) /\
  is_int INT_MIN /\
  valid_rect {| x := 5; y := 5; width := 640; height := 480 |} /\
  (forall s u, valid_rect s -> is_int u -> valid_rect s ->
     valid_rect (set_x u s) /\ valid_rect (set_y u s) /\
     valid_rect (set_width u s) /\ valid_rect (set_height u s)) /\
  valid_rect {| x := 0; y := -7; width := -800; height := -600 |} /\
  (valid_rect
     (set_x INT_MIN {| x := 0; y := -7; width := -800; height := -600 |}) /\
   valid_rect
     (set_y INT_MIN {| x := 0; y := -7; width := -800; height := -600 |}) /\
   valid_rect
     (set_width INT_MIN {| x := 0; y := -7; width := -800; height := -600 |}) /\
   valid_rect
     (set_height INT_MIN {| x := 0; y := -7; width := -800; height := -600 |})) /\
  set_x INT_MIN {| x := 0; y := -7; width := -800; height := -600 |}
    = {| x := INT_MIN; y := -7; width := -800; height := -600 |} /\
  set_y INT_MIN {| x := 0; y := -7; width := -800; height := -600 |}
    = {| x := 0; y := INT_MIN; width := -800; height := -600 |} /\
  set_width INT_MIN {| x := 0; y := -7; width := -800; height := -600 |}
    = {| x := 0; y := -7; width := INT_MIN; height := -600 |} /\
  set_height INT_MIN {| x := 0; y := -7; width := -800; height := -600 |}
    = {| x := 0; y := -7; width := -800; height := INT_MIN |} /\
  set_height (-600) (set_width (-800) (set_y (-7) (set_x 0
     {| x := 5; y := 5; width := 640; height := 480 |})))
    = {| x := 0; y := -7; width := -800; height := -600 |} /\
  (valid_rect {| x := 5; y := 5; width := 640; height := 480 |} ->
   valid_rect {| x := 0; y := -7; width := -800; height := -600 |}).
Proof.
  assert (H0 : is_int 0) by (unfold is_int, INT_MIN, INT_MAX; lia).
  assert (H1 : is_int (-7)) by (unfold is_int, INT_MIN, INT_MAX; lia).
  assert (H2 : is_int (-800)) by (unfold is_int, INT_MIN, INT_MAX; lia).
  assert (H3 : is_int (-600)) by (unfold is_int, INT_MIN, INT_MAX; lia).
  assert (H4 : is_int INT_MIN) by (unfold is_int, INT_MIN, INT_MAX; lia).
  assert (V : valid_rect {| x := 5; y := 5; width := 640; height := 480 |})
    by (unfold valid_rect, is_int, INT_MIN, INT_MAX; cbn; lia).
  assert (K : forall s u, valid_rect s -> is_int u -> valid_rect s ->
     valid_rect (set_x u s) /\ valid_rect (set_y u s) /\
     valid_rect (set_width u s) /\ valid_rect (set_height u s)).
  { intros s u _ Hu (Hx & Hy & Hw & Hh).
    unfold valid_rect, set_x, set_y, set_width, set_height.
    cbn [x y width height]. tauto. }
  split; [exact H0|]. split; [exact H1|]. split; [exact H2|].
  split; [exact H3|]. split; [exact H4|]. split; [exact V|].
  split; [exact K|].
  exact (@WindowRect_no_invariant valid_rect
           {| x := 5; y := 5; width := 640; height := 480 |}
           0 (-7) (-800) (-600) INT_MIN H0 H1 H2 H3 H4 V K).
Defined.

(** ** Sequences of calls *)

Import Session.

Section Sequences.






End Sequences.







(** X4. The platform name is written unescaped, so one call can stand for
    two: a call on the text [P1], line terminator, fixed prefix, [P2]
    leaves the program in exactly the state that a call on [P1] followed
    by a call on [P2] leaves it in. *)
Theorem log_initialize_forged_line (w : world) (p1 p2 q : pointer)
    (P1 P2 : list char) :
  c_str (mem w) p1 = Some P1 ->
  c_str (mem w) p2 = Some P2 ->
  c_str (mem w) q = Some (P1 ++ LF :: text log_prefix ++ P2) ->
  exists w',
    log_each [p1; p2] w = Some (tt, w') /\
    log_initialize q w = Some (tt, w') /\
    written_by (cout w) (cout w') = log_line P1 ++ log_line P2.
Proof.
  intros H1 H2 Hq.
  exists (after_log w (P1 ++ LF :: text log_prefix ++ P2)).
  split; [|split].
  - cbn [log_each]. unfold bind at 1. rewrite (log_initialize_text _ _ H1).
    unfold bind at 1.
    assert (H2' : c_str (mem (after_log w P1)) p2 = Some P2) by exact H2.
    rewrite (log_initialize_text _ _ H2'). unfold ret.
    do 2 f_equal.
    unfold after_log, put, flush, write. cbn.
    do 2 f_equal. now rewrite <- !app_assoc.
  - now apply log_initialize_text.
  - rewrite after_log_written. unfold log_line.
    rewrite <- !app_assoc. reflexivity.
Qed.

Lemma log_initialize_forged_line_witness :
  c_str (mem (boot (c_string "X11" ++ c_string "Wayland"
                      ++ text "X11" ++ LF :: text log_prefix
                      ++ c_string "Wayland")))
        (ptr 0) = Some (text "X11") /\
  c_str (mem (boot (c_string "X11" ++ c_string "Wayland"
                      ++ text "X11" ++ LF :: text log_prefix
                      ++ c_string "Wayland")))
        (ptr 4) = Some (text "Wayland") /\
  c_str (mem (boot (c_string "X11" ++ c_string "Wayland"
                      ++ text "X11" ++ LF :: text log_prefix
                      ++ c_string "Wayland")))
        (ptr 12) = Some (text "X11" ++ LF :: text log_prefix ++ text "Wayland") /\
  exists w',
    log_each [ptr 0; ptr 4]
      (boot (c_string "X11" ++ c_string "Wayland"
               ++ text "X11" ++ LF :: text log_prefix
               ++ c_string "Wayland")) = Some (tt, w') /\
    log_initialize (ptr 12)
      (boot (c_string "X11" ++ c_string "Wayland"
               ++ text "X11" ++ LF :: text log_prefix
               ++ c_string "Wayland")) = Some (tt, w') /\
    written_by
      (cout (boot (c_string "X11" ++ c_string "Wayland"
                     ++ text "X11" ++ LF :: text log_prefix
                     ++ c_string "Wayland")))
      (cout w')
    = log_line (text "X11") ++ log_line (text "Wayland").
Proof.
  split; [reflexivity|]. split; [reflexivity|]. split; [reflexivity|].
  apply (@log_initialize_forged_line
           (boot (c_string "X11" ++ c_string "Wayland"
                    ++ text "X11" ++ LF :: text log_prefix
                    ++ c_string "Wayland"))
           (ptr 0) (ptr 4) (ptr 12) (text "X11") (text "Wayland"));
    reflexivity.
Defined.



(** ** The output and the state of the stream *)

Section FormattedRun.

Lemma padded_width_0 (s : Formatted.ostream) (cs : list char) :
  Formatted.os_width s = 0 -> Formatted.padded s cs = cs.
Proof.
  intros Hw. unfold Formatted.padded. rewrite Hw. cbn [Nat.sub repeat].
  destruct (Formatted.os_left s); [apply app_nil_r|reflexivity].
Qed.

Lemma padded_same (s1 s2 : Formatted.ostream) (cs : list char) :
  Formatted.output_state s1 = Formatted.output_state s2 ->
  Formatted.padded s1 cs = Formatted.padded s2 cs.
Proof.
  unfold Formatted.output_state, Formatted.padded.
  intros [= _ -> -> ->]. reflexivity.
Qed.

Lemma chars_sentry_exit (s : Formatted.ostream) (c : Cxx.ostream) :
  chars (Formatted.sentry_exit s c) = chars c.
Proof.
  unfold Formatted.sentry_exit.
  destruct (Formatted.os_unitbuf s); [apply chars_flush|reflexivity].
Qed.

Lemma is_good_setstate_fail (s : Formatted.ostream) :
  Formatted.is_good (Formatted.os_state (Formatted.setstate_fail s)) = false.
Proof.
  unfold Formatted.is_good, Formatted.setstate_fail. cbn.
  now rewrite orb_true_r.
Qed.

Lemma insert_good (cs : list char) (s : Formatted.ostream) :
  Formatted.is_good (Formatted.os_state s) = true ->
  Formatted.is_good (Formatted.os_state (Formatted.insert cs s)) = true /\
  Formatted.os_width (Formatted.insert cs s) = 0 /\
  chars (Formatted.os_chars (Formatted.insert cs s))
    = chars (Formatted.os_chars s) ++ Formatted.padded s cs.
Proof.
  intros Hg. unfold Formatted.insert. rewrite Hg.
  cbn [Formatted.os_state Formatted.os_width Formatted.os_chars].
  split; [exact Hg|]. split; [reflexivity|].
  now rewrite chars_sentry_exit, chars_write.
Qed.

Lemma guarded_good (f : Cxx.ostream -> Cxx.ostream) (s : Formatted.ostream) :
  Formatted.is_good (Formatted.os_state s) = true ->
  Formatted.is_good (Formatted.os_state (Formatted.guarded f s)) = true /\
  chars (Formatted.os_chars (Formatted.guarded f s))
    = chars (f (Formatted.os_chars s)).
Proof.
  intros Hg. unfold Formatted.guarded. rewrite Hg.
  cbn [Formatted.os_state Formatted.os_chars].
  split; [exact Hg|]. apply chars_sentry_exit.
Qed.

Variables (w : Formatted.world) (platform_name : pointer) (P : list char).
Hypothesis HP : c_str (Formatted.mem w) platform_name = Some P.

(** On a good stream the call inserts the padded prefix, the name and the
    line terminator. *)
Lemma formatted_run_good :
  Formatted.is_good (Formatted.os_state (Formatted.cout w)) = true ->
  exists w',
    Formatted.log_initialize platform_name w = Some (tt, w') /\
    Formatted.mem w' = Formatted.mem w /\
    chars (Formatted.os_chars (Formatted.cout w')) =
      chars (Formatted.os_chars (Formatted.cout w))
        ++ Formatted.padded (Formatted.cout w) (text log_prefix)
        ++ P ++ [LF].
Proof.
  intros Hg.
  unfold Formatted.log_initialize, Formatted.cout_literal,
    Formatted.cout_c_str, Formatted.cout_endl, Formatted.load_c_str,
    Formatted.on_cout, Formatted.bind.
  cbn [Formatted.mem Formatted.cout Formatted.cerr]. rewrite HP.
  eexists. split; [reflexivity|]. split; [reflexivity|].
  cbn [Formatted.cout].
  destruct (insert_good (list_ascii_of_string log_prefix) _ Hg)
    as (Hg1 & Hw1 & Hc1).
  destruct (insert_good P _ Hg1) as (Hg2 & _ & Hc2).
  unfold Formatted.flush, Formatted.put.
  destruct (guarded_good (write [LF]) _ Hg2) as (Hg3 & Hc3).
  destruct (guarded_good Cxx.flush _ Hg3) as (_ & Hc4).
  rewrite Hc4, chars_flush, Hc3, chars_write, Hc2, Hc1.
  rewrite (padded_width_0 _ P Hw1).
  unfold text. now rewrite <- !app_assoc.
Qed.

(** On a stream that is not good the call inserts nothing. *)
Lemma formatted_run_failed :
  Formatted.is_good (Formatted.os_state (Formatted.cout w)) = false ->
  exists w',
    Formatted.log_initialize platform_name w = Some (tt, w') /\
    Formatted.mem w' = Formatted.mem w /\
    Formatted.os_chars (Formatted.cout w')
      = Formatted.os_chars (Formatted.cout w).
Proof.
  intros Hg.
  unfold Formatted.log_initialize, Formatted.cout_literal,
    Formatted.cout_c_str, Formatted.cout_endl, Formatted.load_c_str,
    Formatted.on_cout, Formatted.bind.
  cbn [Formatted.mem Formatted.cout Formatted.cerr]. rewrite HP.
  eexists. split; [reflexivity|]. split; [reflexivity|].
  cbn [Formatted.cout].
  unfold Formatted.flush, Formatted.put, Formatted.guarded, Formatted.insert.
  rewrite Hg. rewrite !is_good_setstate_fail. reflexivity.
Qed.

End FormattedRun.

(** On a good stream with field width 0 the call does what it does on the
    plain stream of [Cxx], state for state. *)
Lemma formatted_run_default (w : Formatted.world) (platform_name : pointer)
    (P : list char) :
  c_str (Formatted.mem w) platform_name = Some P ->
  Formatted.is_good (Formatted.os_state (Formatted.cout w)) = true ->
  Formatted.os_width (Formatted.cout w) = 0 ->
  exists w',
    Formatted.log_initialize platform_name w = Some (tt, w') /\
    windowmanager.log_initialize platform_name (Formatted.erase w)
      = Some (tt, Formatted.erase w').
Proof.
  intros HP Hg Hw.
  assert (HP' : c_str (mem (Formatted.erase w)) platform_name = Some P)
    by exact HP.
  rewrite (log_initialize_text _ _ HP').
  unfold Formatted.log_initialize, Formatted.cout_literal,
    Formatted.cout_c_str, Formatted.cout_endl, Formatted.load_c_str,
    Formatted.on_cout, Formatted.bind.
  cbn [Formatted.mem Formatted.cout Formatted.cerr]. rewrite HP.
  eexists. split; [reflexivity|].
  unfold Formatted.erase, after_log.
  cbn [Formatted.mem Formatted.cout Formatted.cerr mem cout cerr].
  do 3 f_equal.
  unfold Formatted.flush, Formatted.put, Formatted.guarded, Formatted.insert,
    Formatted.padded, Formatted.sentry_exit.
  rewrite Hg, Hw.
  cbn [Formatted.os_state Formatted.os_width Formatted.os_chars
       Formatted.os_left Formatted.os_fill Formatted.os_unitbuf].
  rewrite Hg.
  cbn [Formatted.os_state Formatted.os_width Formatted.os_chars
       Formatted.os_left Formatted.os_fill Formatted.os_unitbuf].
  rewrite Hg.
  cbn [Formatted.os_state Formatted.os_width Formatted.os_chars
       Formatted.os_left Formatted.os_fill Formatted.os_unitbuf].
  rewrite Hg.
  cbn [Formatted.os_state Formatted.os_width Formatted.os_chars
       Formatted.os_left Formatted.os_fill Formatted.os_unitbuf
       Nat.sub repeat].
  unfold text, put, flush, write.
  destruct (Formatted.os_left (Formatted.cout w)),
    (Formatted.os_unitbuf (Formatted.cout w));
    cbn [buffer device app]; f_equal;
    rewrite ?app_nil_r; cbn [app]; now rewrite <- ?app_assoc.
Qed.

(** C8, as stated, fails: calls on the same platform name write different
    characters when the state of [std::cout] differs.  On the name X11 a
    stream at its defaults gets the 49 characters of the line, a stream
    with field width 60 gets 64 characters (the prefix is padded), and a
    stream on which [failbit] is set gets none. *)
Lemma log_initialize_output_follows_stream_state :
  exists w1' w2' w3',
    Formatted.log_initialize (ptr 0) (Formatted.boot (c_string "X11") 0)
      = Some (tt, w1') /\
    Formatted.log_initialize (ptr 0) (Formatted.boot (c_string "X11") 60)
      = Some (tt, w2') /\
    Formatted.log_initialize (ptr 0)
      {| Formatted.mem := c_string "X11";
         Formatted.cout := Formatted.failed_stream;
         Formatted.cerr := Formatted.fresh_stream 0 |}
      = Some (tt, w3') /\
    Formatted.written_by (Formatted.fresh_stream 0) (Formatted.cout w1')
      = text "Initializing window controller for platform: X11" ++ [LF] /\
    Formatted.written_by (Formatted.fresh_stream 60) (Formatted.cout w2')
      = text "               Initializing window controller for platform: X11"
          ++ [LF] /\
    Formatted.written_by Formatted.failed_stream (Formatted.cout w3') = [] /\
    Formatted.written_by (Formatted.fresh_stream 0) (Formatted.cout w1')
      <> Formatted.written_by (Formatted.fresh_stream 60) (Formatted.cout w2') /\
    Formatted.written_by (Formatted.fresh_stream 0) (Formatted.cout w1')
      <> Formatted.written_by Formatted.failed_stream (Formatted.cout w3').
Proof.
  do 3 eexists.
  do 3 (split; [reflexivity|]).
  do 3 (split; [reflexivity|]).
  split; cbv; discriminate.
Qed.

(** C8, amended.  Two calls whose arguments designate equal texts, started
    on streams in the same error condition and with the same field width,
    fill character and adjustment, write the same characters, whatever
    else differs between the two states: storage, addresses, earlier
    output, what the stream still holds, [unitbuf], the other stream. *)
Theorem log_initialize_deterministic_in_stream_state
    (w1 w2 : Formatted.world) (p1 p2 : pointer) (P : list char) :
  c_str (Formatted.mem w1) p1 = Some P ->
  c_str (Formatted.mem w2) p2 = Some P ->
  Formatted.output_state (Formatted.cout w1)
    = Formatted.output_state (Formatted.cout w2) ->
  exists w1' w2',
    Formatted.log_initialize p1 w1 = Some (tt, w1') /\
    Formatted.log_initialize p2 w2 = Some (tt, w2') /\
    Formatted.written_by (Formatted.cout w1) (Formatted.cout w1')
      = Formatted.written_by (Formatted.cout w2) (Formatted.cout w2').
Proof.
  intros H1 H2 Hst.
  assert (Hgood : Formatted.is_good (Formatted.os_state (Formatted.cout w1))
                  = Formatted.is_good (Formatted.os_state (Formatted.cout w2))).
  { unfold Formatted.output_state in Hst. now injection Hst. }
  unfold Formatted.written_by.
  destruct (Formatted.is_good (Formatted.os_state (Formatted.cout w1))) eqn:Hg1.
  - destruct (@formatted_run_good w1 p1 P H1 Hg1) as (w1' & R1 & _ & C1).
    destruct (@formatted_run_good w2 p2 P H2 (eq_sym Hgood)) as (w2' & R2 & _ & C2).
    exists w1', w2'. split; [exact R1|]. split; [exact R2|].
    rewrite (@written_by_app _ _ _ C1), (@written_by_app _ _ _ C2).
    now rewrite (@padded_same _ _ (text log_prefix) Hst).
  - destruct (@formatted_run_failed w1 p1 P H1 Hg1) as (w1' & R1 & _ & C1).
    destruct (@formatted_run_failed w2 p2 P H2 (eq_sym Hgood)) as (w2' & R2 & _ & C2).
    exists w1', w2'. split; [exact R1|]. split; [exact R2|].
    rewrite C1, C2. unfold Cxx.written_by. now rewrite !skipn_all.
Qed.

Lemma log_initialize_deterministic_in_stream_state_witness :
  c_str (Formatted.mem (Formatted.boot (c_string "X11") 60)) (ptr 0)
    = Some (text "X11") /\
  c_str (text "pad" ++ c_string "X11" ++ text "tail") (ptr 3)
    = Some (text "X11") /\
  Formatted.output_state (Formatted.cout (Formatted.boot (c_string "X11") 60))
    = Formatted.output_state
        {| Formatted.os_state := Formatted.goodbit;
           Formatted.os_width := 60;
           Formatted.os_fill := " "%char;
           Formatted.os_left := false;
           Formatted.os_unitbuf := true;
           Formatted.os_chars :=
             {| buffer := text "held"; device := text "earlier" |} |} /\
  exists w1' w2',
    Formatted.log_initialize (ptr 0) (Formatted.boot (c_string "X11") 60)
      = Some (tt, w1') /\
    Formatted.log_initialize (ptr 3)
      {| Formatted.mem := text "pad" ++ c_string "X11" ++ text "tail";
         Formatted.cout :=
           {| Formatted.os_state := Formatted.goodbit;
              Formatted.os_width := 60;
              Formatted.os_fill := " "%char;
              Formatted.os_left := false;
              Formatted.os_unitbuf := true;
              Formatted.os_chars :=
                {| buffer := text "held"; device := text "earlier" |} |};
         Formatted.cerr := Formatted.failed_stream |}
      = Some (tt, w2') /\
    Formatted.written_by
      (Formatted.cout (Formatted.boot (c_string "X11") 60))
      (Formatted.cout w1')
    = Formatted.written_by
        {| Formatted.os_state := Formatted.goodbit;
           Formatted.os_width := 60;
           Formatted.os_fill := " "%char;
           Formatted.os_left := false;
           Formatted.os_unitbuf := true;
           Formatted.os_chars :=
             {| buffer := text "held"; device := text "earlier" |} |}
        (Formatted.cout w2').
Proof.
  split; [reflexivity|]. split; [reflexivity|]. split; [reflexivity|].
  apply (@log_initialize_deterministic_in_stream_state
           (Formatted.boot (c_string "X11") 60)
           {| Formatted.mem := text "pad" ++ c_string "X11" ++ text "tail";
              Formatted.cout :=
                {| Formatted.os_state := Formatted.goodbit;
                   Formatted.os_width := 60;
                   Formatted.os_fill := " "%char;
                   Formatted.os_left := false;
                   Formatted.os_unitbuf := true;
                   Formatted.os_chars :=
                     {| buffer := text "held"; device := text "earlier" |} |};
              Formatted.cerr := Formatted.failed_stream |}
           (ptr 0) (ptr 3) (text "X11")); reflexivity.
Defined.
